(** * A shallow embedding of cfssl's OCSP signer (ocsp/ocsp.go)

    The Go package [ocsp] builds a [StandardSigner] from an issuer
    certificate, a responder certificate, a private key and an interval,
    and signs OCSP responses through [StandardSigner.Sign].  The x509
    signature check, the PEM parsers and [ocsp.CreateResponse] belong to
    other packages; they are the variables of the section below.  File
    reads, clock reads and the calls into those packages are recorded in
    an event trace so that the order of the checks can be stated. *)

From Stdlib Require Import ZArith Lia.
From Stdlib Require Import Strings.Byte.
From stdpp Require Import base gmap strings list.

Open Scope Z_scope.

(** ** Go values *)

(** [[]byte] *)
Definition bytes : Type := list Byte.byte.

(** Go's [error] values used on the paths modelled here. *)
Inductive goerror :=
  | errorString (msg : string)                       (** [errors.New(msg)] *)
  | PathError (op path : string)                     (** [ioutil.ReadFile] failure *)
  | ParseError (what : string)                       (** a PEM parser's error *)
  | CFError (category reason : string) (inner : goerror)  (** [cferr.Wrap] *)
  | EncodingError (msg : string).                    (** [ocsp.CreateResponse] failure *)

(** Outcome of a Go call: a value with a nil error, a non-nil error, or a
    run-time panic (e.g. a nil pointer dereference). *)
Inductive outcome (A : Type) :=
  | Ok (a : A)
  | Err (e : goerror)
  | Panic (msg : string).
Arguments Ok {A} a.
Arguments Err {A} e.
Arguments Panic {A} msg.

(** Observable actions of a call, in order. *)
Inductive event :=
  | EvReadFile (path : string)     (** [ioutil.ReadFile(path)] *)
  | EvCompareNames                 (** [bytes.Compare(RawIssuer, RawSubject)] *)
  | EvCheckSignature               (** [Certificate.CheckSignatureFrom] *)
  | EvNow                          (** [time.Now()] *)
  | EvCreateResponse.              (** [ocsp.CreateResponse] *)

(** A writer/error monad: the outcome together with the trace of events. *)
Definition M (A : Type) : Type := (outcome A * list event)%type.

Definition go_ret {A} (a : A) : M A := (Ok a, []).
Definition go_throw {A} (e : goerror) : M A := (Err e, []).
Definition go_panic {A} (msg : string) : M A := (Panic msg, []).
Definition go_lift {A} (o : outcome A) : M A := (o, []).
Definition emit (ev : event) : M unit := (Ok tt, [ev]).

Definition go_bind {A B} (m : M A) (f : A -> M B) : M B :=
  match m with
  | (Ok a, tr) => let '(r, tr') := f a in (r, tr ++ tr')
  | (Err e, tr) => (Err e, tr)
  | (Panic p, tr) => (Panic p, tr)
  end.

Notation "'let!' x := m 'in' k" := (go_bind m (fun x => k))
  (at level 200, x name, m at level 100, k at level 200).
Notation "m ;; k" := (go_bind m (fun _ => k))
  (at level 100, right associativity).

(** Signed 64-bit wrap-around ([int], [int64], [time.Duration]). *)
Definition two63 : Z := 2 ^ 63.
Definition two64 : Z := 2 ^ 64.
Definition wrap64 (z : Z) : Z :=
  let m := z mod two64 in if two63 <=? m then m - two64 else m.

(** ** bytes.Compare *)

Fixpoint bytes_Compare (a b : bytes) : Z :=
  match a, b with
  | [], [] => 0
  | [], _ :: _ => -1
  | _ :: _, [] => 1
  | x :: a', y :: b' =>
      if (Byte.to_N x <? Byte.to_N y)%N then -1
      else if (Byte.to_N y <? Byte.to_N x)%N then 1
      else bytes_Compare a' b'
  end.

(** ** package time

    A [time.Time] without monotonic reading (as left by [Round]): [sec]
    is the number of seconds since January 1, year 1, 00:00:00 UTC (the
    [ext] field), [nsec] the nanoseconds within that second, in
    [0, 1e9).  A [time.Duration] is an [int64] count of nanoseconds. *)
Record Time := mkTime { sec : Z; nsec : Z }.
Definition Duration : Type := Z.

Definition Nanosecond : Duration := 1.
Definition Second : Duration := 1000000000.
Definition Minute : Duration := 60 * Second.
Definition Hour : Duration := 60 * Minute.

(** The zero [time.Time]. *)
Definition zeroTime : Time := mkTime 0 0.

(** Nanoseconds since the zero time. *)
Definition unixNano0 (t : Time) : Z := sec t * Second + nsec t.

(** [Time.addSec] (pointer receiver): add [d] seconds, saturating on int64 overflow. *)
Definition addSec (ext d : Z) : Z :=
  let sum := wrap64 (ext + d) in
  if Bool.eqb (ext <? sum) (0 <? d) then sum
  else if 0 <? d then two63 - 1
  else - (two63 - 1).

(** [Time.Add] *)
Definition Add (t : Time) (d : Duration) : Time :=
  let dsec := Z.quot d Second in
  let ns := nsec t + Z.rem d Second in
  let '(dsec, ns) :=
    if Second <=? ns then (dsec + 1, ns - Second)
    else if ns <? 0 then (dsec - 1, ns + Second)
    else (dsec, ns) in
  mkTime (addSec (sec t) dsec) ns.

(** [lessThanHalf(x, y)]: [uint64(x)+uint64(x) < uint64(y)]. *)
Definition lessThanHalf (x y : Duration) : bool :=
  ((x mod two64 + x mod two64) mod two64 <? y mod two64).

(** The remainder returned by [div(t, d)]: for every branch of Go's [div]
    (including the negative-time correction [r = d - r]), it is the
    floor remainder of the nanoseconds since the zero time by [d]. *)
Definition div_r (t : Time) (d : Duration) : Duration :=
  unixNano0 t mod d.

(** [Time.Round] *)
Definition Round (t : Time) (d : Duration) : Time :=
  if d <=? 0 then t
  else
    let r := div_r t d in
    if lessThanHalf r d then Add t (- r) else Add t (d - r).

(** ** crypto/x509, crypto and golang.org/x/crypto/ocsp values *)

(** The fields of [x509.Certificate] that the signer reads; [Raw] stands
    for the whole DER encoding (key, signature, ...). *)
Record Certificate := mkCertificate {
  Raw : bytes;
  RawIssuer : bytes;
  RawSubject : bytes;
  SerialNumber : Z
}.

(** A [crypto.Signer] private key, by its DER encoding. *)
Record PrivateKey := mkPrivateKey { key_der : bytes }.

(** [ocsp.Good], [ocsp.Revoked], [ocsp.Unknown]. *)
Definition ocsp_Good : Z := 0.
Definition ocsp_Revoked : Z := 1.
Definition ocsp_Unknown : Z := 2.

(** [ocsp.Response], the fields the signer sets. *)
Record Response := mkResponse {
  resp_Status : Z;
  resp_SerialNumber : Z;
  resp_ThisUpdate : Time;
  resp_NextUpdate : Time;
  resp_RevokedAt : Time;
  resp_RevocationReason : Z;
  resp_Certificate : option Certificate
}.

(** ** package ocsp (cfssl) *)

(** [var statusCode = map[string]int{...}] *)
Definition statusCode : gmap string Z :=
  <[ "good" := ocsp_Good ]> (<[ "revoked" := ocsp_Revoked ]>
    (<[ "unknown" := ocsp_Unknown ]> ∅)).

(** [SignRequest] *)
Record SignRequest := mkSignRequest {
  req_Certificate : option Certificate;   (** [*x509.Certificate], [None] is nil *)
  req_Status : string;
  req_Reason : Z;
  req_RevokedAt : Time
}.

(** [StandardSigner] *)
Record StandardSigner := mkStandardSigner {
  issuer : option Certificate;
  responder : option Certificate;
  key : option PrivateKey;
  interval : Duration
}.

(** [NewSigner]: [interval] is a Go [int] (64 bits), converted to a
    [time.Duration] and multiplied by [time.Second] in int64. *)
Definition NewSigner (issuer0 responder0 : option Certificate)
    (key0 : option PrivateKey) (interval0 : Z) : outcome StandardSigner :=
  Ok {| issuer := issuer0;
        responder := responder0;
        key := key0;
        interval := wrap64 (interval0 * Second) |}.

(** ** Concrete inputs used to exercise the model *)

(** A test issuer (subject name [0a]), a certificate it issued, a
    certificate of another authority, and a certificate that names the
    test issuer but whose signature does not verify (serial 9). *)
Definition demo_issuer : Certificate := mkCertificate [x01] [x00] [x0a] 1.
Definition demo_responder : Certificate := mkCertificate [x05] [x0a] [x0f] 2.
Definition demo_leaf : Certificate := mkCertificate [x02] [x0a] [x0b] 42.
Definition demo_foreign : Certificate := mkCertificate [x03] [x0c] [x0d] 7.
Definition demo_forged : Certificate := mkCertificate [x04] [x0a] [x0e] 9.
Definition demo_key : PrivateKey := mkPrivateKey [x06].

(** Signature check of the test PKI: everything verifies except the
    forged certificate. *)
Definition demo_CheckSignatureFrom (c parent : Certificate) : option goerror :=
  if SerialNumber c =? 9 then Some (errorString "crypto/rsa: verification error")
  else None.

(** An encoder that always succeeds. *)
Definition demo_CreateResponse (iss resp : option Certificate) (t : Response)
    (k : option PrivateKey) : outcome bytes := Ok [x30].

(** 2026-10-17 12:30:00 UTC, and 12:00:00 of the same day. *)
Definition demo_now : Time := mkTime 63927837000 0.
Definition demo_hour_start : Time := mkTime 63927835200 0.

Definition demo_signer (interval0 : Z) : StandardSigner :=
  {| issuer := Some demo_issuer; responder := Some demo_responder;
     key := Some demo_key; interval := wrap64 (interval0 * Second) |}.

Definition demo_request (c : option Certificate) (status : string) : SignRequest :=
  mkSignRequest c status 1 (mkTime 63927800000 0).

(** A file system holding the three PEM files, and parsers that keep
    the bytes they were given. *)
Definition demo_fs (path : string) : option bytes :=
  if bool_decide (path = "issuer.pem") then Some [x01]
  else if bool_decide (path = "responder.pem") then Some [x05]
  else if bool_decide (path = "key.pem") then Some [x06]
  else None.
Definition demo_ParseCertificatePEM (b : bytes) : outcome Certificate :=
  Ok (mkCertificate b [] [] 0).
Definition demo_ParsePrivateKeyPEM (b : bytes) : outcome PrivateKey :=
  Ok (mkPrivateKey b).

(** A file system with an unparsable file, and parsers that accept only
    the test issuer certificate and the test key. *)
Definition demo_fs_garbage (path : string) : option bytes :=
  if bool_decide (path = "garbage.pem") then Some [xff] else demo_fs path.
Definition demo_StrictParseCertificatePEM (b : bytes) : outcome Certificate :=
  match b with
  | [x01] => Ok (mkCertificate b [] [] 0)
  | _ => Err (ParseError "certificate")
  end.
Definition demo_StrictParsePrivateKeyPEM (b : bytes) : outcome PrivateKey :=
  match b with
  | [x06] => Ok (mkPrivateKey b)
  | _ => Err (ParseError "private key")
  end.

Section Signer.

(** [Certificate.CheckSignatureFrom(parent)] of crypto/x509: [None] is
    a nil error. *)
Variable CheckSignatureFrom : Certificate -> Certificate -> option goerror.

(** [ocsp.CreateResponse(issuer, responderCert, template, priv)] of
    golang.org/x/crypto/ocsp: DER encoding and signature. *)
Variable CreateResponse :
  option Certificate -> option Certificate -> Response -> option PrivateKey ->
  outcome bytes.

(** [helpers.ParseCertificatePEM] and [helpers.ParsePrivateKeyPEM]. *)
Variable ParseCertificatePEM : bytes -> outcome Certificate.
Variable ParsePrivateKeyPEM : bytes -> outcome PrivateKey.

(** [ioutil.ReadFile] over a file system mapping paths to contents. *)
Definition ReadFile (fs : string -> option bytes) (path : string) : M bytes :=
  emit (EvReadFile path) ;;
  match fs path with
  | Some b => go_ret b
  | None => go_throw (PathError "open" path)
  end.

(** [NewStandardSignerFromFile] *)
Definition NewStandardSignerFromFile (fs : string -> option bytes)
    (issuerFile responderFile keyFile : string) (interval0 : Z)
    : M StandardSigner :=
  let! issuerBytes := ReadFile fs issuerFile in
  let! responderBytes := ReadFile fs issuerFile in
  let! keyBytes :=
    (match ReadFile fs keyFile with
     | (Err e, tr) => (Err (CFError "CertificateError" "ReadFailed" e), tr)
     | r => r
     end) in
  let! issuerCert := go_lift (ParseCertificatePEM issuerBytes) in
  let! responderCert := go_lift (ParseCertificatePEM responderBytes) in
  let! key0 := go_lift (ParsePrivateKeyPEM keyBytes) in
  go_lift (NewSigner (Some issuerCert) (Some responderCert) (Some key0) interval0).

(** The error built at each rejection point of [Sign]:
    [errors.New("TODO") // XXX]. *)
Definition errTODO : goerror := errorString "TODO".

(** The template of [Sign] before the revocation fields are filled in. *)
Definition base_template (status : Z) (c : Certificate)
    (thisUpdate nextUpdate : Time) (resp : option Certificate) : Response :=
  {| resp_Status := status;
     resp_SerialNumber := SerialNumber c;
     resp_ThisUpdate := thisUpdate;
     resp_NextUpdate := nextUpdate;
     resp_RevokedAt := zeroTime;
     resp_RevocationReason := 0;
     resp_Certificate := resp |}.

(** [if status == ocsp.Revoked { template.RevokedAt = ...; ... }] *)
Definition fill_revoked (status : Z) (req : SignRequest) (t : Response) : Response :=
  if status =? ocsp_Revoked then
    {| resp_Status := resp_Status t;
       resp_SerialNumber := resp_SerialNumber t;
       resp_ThisUpdate := resp_ThisUpdate t;
       resp_NextUpdate := resp_NextUpdate t;
       resp_RevokedAt := req_RevokedAt req;
       resp_RevocationReason := req_Reason req;
       resp_Certificate := resp_Certificate t |}
  else t.

(** [StandardSigner.Sign]; [now] is the value [time.Now()] returns. *)
Definition Sign (s : StandardSigner) (req : SignRequest) (now : Time) : M bytes :=
  match req_Certificate req with
  | None => go_throw errTODO
  | Some c =>
      match issuer s with
      | None => go_panic "invalid memory address or nil pointer dereference"
      | Some iss =>
          emit EvCompareNames ;;
          if negb (bytes_Compare (RawIssuer c) (RawSubject iss) =? 0)
          then go_throw errTODO
          else
            emit EvCheckSignature ;;
            match CheckSignatureFrom c iss with
            | Some _ => go_throw errTODO
            | None =>
                emit EvNow ;;
                let thisUpdate := Round now Hour in
                let nextUpdate := Add thisUpdate (interval s) in
                match statusCode !! req_Status req with
                | None => go_throw errTODO
                | Some status =>
                    let template :=
                      fill_revoked status req
                        (base_template status c thisUpdate nextUpdate (responder s)) in
                    emit EvCreateResponse ;;
                    go_lift (CreateResponse (issuer s) (responder s) template (key s))
                end
            end
      end
  end.

(** The template [Sign] hands to [ocsp.CreateResponse], when it gets
    that far. *)
Definition sign_template (s : StandardSigner) (req : SignRequest) (now : Time)
    : option Response :=
  match req_Certificate req, issuer s with
  | Some c, Some iss =>
      if negb (bytes_Compare (RawIssuer c) (RawSubject iss) =? 0) then None
      else match CheckSignatureFrom c iss with
           | Some _ => None
           | None =>
               let thisUpdate := Round now Hour in
               let nextUpdate := Add thisUpdate (interval s) in
               match statusCode !! req_Status req with
               | None => None
               | Some status =>
                   Some (fill_revoked status req
                     (base_template status c thisUpdate nextUpdate (responder s)))
               end
           end
  | _, _ => None
  end.

(** ** Properties of the Go library functions *)

Lemma bytes_Compare_eq (a b : bytes) : bytes_Compare a b = 0 <-> a = b.
Proof.
  revert b; induction a as [|x a IH]; intros [|y b]; simpl;
    try (split; [discriminate | congruence]); [tauto|].
  destruct (N.ltb_spec (Byte.to_N x) (Byte.to_N y)) as [Hxy|Hxy].
  { split; [discriminate|]. intros [= <- _]. lia. }
  destruct (N.ltb_spec (Byte.to_N y) (Byte.to_N x)) as [Hyx|Hyx].
  { split; [discriminate|]. intros [= <- _]. lia. }
  assert (Hn : Byte.to_N x = Byte.to_N y) by lia.
  assert (x = y) as ->.
  { pose proof (Byte.of_to_N x) as Hx. pose proof (Byte.of_to_N y) as Hy.
    rewrite Hn in Hx. congruence. }
  rewrite IH. split; [intros ->|intros [= ->]]; reflexivity.
Qed.

Lemma wrap64_id (z : Z) : - two63 <= z < two63 -> wrap64 z = z.
Proof.
  unfold wrap64, two63, two64; intros Hz.
  pose proof (Z.mod_pos_bound z (2 ^ 64)) as Hb.
  pose proof (Z.div_mod z (2 ^ 64)) as Hd.
  assert (H64 : 2 ^ 64 = 18446744073709551616) by reflexivity.
  assert (H63 : 2 ^ 63 = 9223372036854775808) by reflexivity.
  rewrite H64, H63 in *.
  specialize (Hb ltac:(lia)). specialize (Hd ltac:(lia)).
  destruct (Z.leb_spec 9223372036854775808 (z mod 18446744073709551616)); lia.
Qed.

Lemma addSec_exact (ext d : Z) :
  - two63 <= ext + d < two63 -> addSec ext d = ext + d.
Proof.
  intros Hr. unfold addSec. rewrite wrap64_id by exact Hr.
  destruct (Z.ltb_spec ext (ext + d)), (Z.ltb_spec 0 d); simpl; lia.
Qed.

(** Without saturation, [Time.Add] adds the duration exactly and keeps
    the nanoseconds normalised. *)
Lemma Add_exact (t : Time) (d : Duration) :
  0 <= nsec t < Second ->
  - 2 ^ 62 <= sec t <= 2 ^ 62 ->
  - two63 <= d < two63 ->
  unixNano0 (Add t d) = unixNano0 t + d /\ 0 <= nsec (Add t d) < Second.
Proof.
  intros Hns Hs Hd. unfold Add, unixNano0.
  pose proof (Z.quot_rem' d Second) as Hq.
  pose proof (Z.rem_bound_abs d Second ltac:(unfold Second; lia)) as Hr.
  assert (H63 : two63 = 9223372036854775808) by reflexivity.
  assert (H62 : 2 ^ 62 = 4611686018427387904) by reflexivity.
  rewrite H62 in Hs. rewrite H63 in Hd.
  unfold Second in *.
  set (q := Z.quot d 1000000000) in *.
  set (r := Z.rem d 1000000000) in *.
  assert (Hq' : -9300000000 <= q <= 9300000000) by lia.
  destruct (Z.leb_spec 1000000000 (nsec t + r));
    [|destruct (Z.ltb_spec (nsec t + r) 0)]; simpl;
    rewrite addSec_exact by (rewrite H63; lia); simpl; lia.
Qed.

(** [Time.Round(t, time.Hour)] for a normalised time within the int64
    range: the start of [t]'s hour when less than half an hour has passed
    in it, the start of the next hour otherwise. *)
Lemma Round_Hour_exact (t : Time) :
  0 <= nsec t < Second ->
  - 2 ^ 61 <= sec t <= 2 ^ 61 ->
  let r := unixNano0 t mod Hour in
  unixNano0 (Round t Hour) =
    (if r + r <? Hour then unixNano0 t - r else unixNano0 t - r + Hour) /\
  0 <= nsec (Round t Hour) < Second /\
  sec t - 3601 <= sec (Round t Hour) <= sec t + 3601.
Proof.
  intros Hns Hs r.
  pose proof (Z.mod_pos_bound (unixNano0 t) Hour ltac:(unfold Hour, Minute, Second; lia)) as Hb.
  fold r in Hb.
  assert (Hhalf : lessThanHalf r Hour = (r + r <? Hour)).
  { unfold lessThanHalf, two64.
    unfold Hour, Minute, Second in *.
    rewrite (Z.mod_small r), (Z.mod_small (60 * (60 * 1000000000))) by lia.
    rewrite Z.mod_small by lia. reflexivity. }
  assert (H62 : - 2 ^ 62 <= sec t <= 2 ^ 62).
  { assert (2 ^ 62 = 2 * 2 ^ 61) as -> by reflexivity. lia. }
  assert (Hd1 : - two63 <= - r < two63)
    by (unfold two63, Hour, Minute, Second in *; lia).
  assert (Hd2 : - two63 <= Hour - r < two63)
    by (unfold two63, Hour, Minute, Second in *; lia).
  unfold Round. replace (Hour <=? 0) with false by reflexivity.
  fold r. unfold div_r. fold r. rewrite Hhalf.
  destruct (Z.ltb_spec (r + r) Hour).
  - destruct (Add_exact t (- r) Hns H62 Hd1) as [He Hn].
    repeat split; try lia;
      unfold unixNano0, Hour, Minute, Second in *; nia.
  - destruct (Add_exact t (Hour - r) Hns H62 Hd2) as [He Hn].
    repeat split; try lia;
      unfold unixNano0, Hour, Minute, Second in *; nia.
Qed.

(** ** The steps of [Sign] *)

Lemma bind_emit {B} (ev : event) (k : unit -> M B) :
  go_bind (emit ev) k = (fst (k tt), ev :: snd (k tt)).
Proof. unfold go_bind, emit. destruct (k tt); reflexivity. Qed.

Ltac sign_steps := repeat (rewrite bind_emit; cbn beta iota).

(** A successful [Sign] passed every check and returned what
    [ocsp.CreateResponse] made of the template. *)
Lemma Sign_ok_inv s req now b :
  fst (Sign s req now) = Ok b ->
  exists c iss st,
    req_Certificate req = Some c /\ issuer s = Some iss /\
    RawIssuer c = RawSubject iss /\ CheckSignatureFrom c iss = None /\
    statusCode !! req_Status req = Some st /\
    sign_template s req now =
      Some (fill_revoked st req
              (base_template st c (Round now Hour)
                 (Add (Round now Hour) (interval s)) (responder s))) /\
    CreateResponse (issuer s) (responder s)
      (fill_revoked st req
         (base_template st c (Round now Hour)
            (Add (Round now Hour) (interval s)) (responder s))) (key s) = Ok b.
Proof.
  unfold Sign, sign_template.
  destruct (req_Certificate req) as [c|]; [|discriminate].
  destruct (issuer s) as [iss|]; [|discriminate].
  sign_steps. simpl.
  destruct (bytes_Compare (RawIssuer c) (RawSubject iss) =? 0) eqn:Hn;
    simpl; [|discriminate].
  sign_steps. simpl.
  destruct (CheckSignatureFrom c iss) eqn:Hc; simpl; [discriminate|].
  sign_steps. simpl.
  destruct (statusCode !! req_Status req) as [st|] eqn:Hst; simpl; [|discriminate].
  sign_steps. simpl. intros Hb.
  apply Z.eqb_eq, bytes_Compare_eq in Hn.
  exists c, iss, st. repeat split; assumption.
Qed.

(** ** Claims about [Sign] and the constructors *)

(** C1: once the certificate is present and its issuer name matches the
    issuer's subject, [Sign] always runs the signature check; when the
    signature does not verify it returns the request error
    [errors.New("TODO")], and never reaches [ocsp.CreateResponse]. *)
Theorem Sign_checks_signature s req now c iss :
  req_Certificate req = Some c -> issuer s = Some iss ->
  RawIssuer c = RawSubject iss ->
  In EvCheckSignature (snd (Sign s req now)) /\
  (forall e, CheckSignatureFrom c iss = Some e ->
     Sign s req now = (Err errTODO, [EvCompareNames; EvCheckSignature])).
Proof.
  intros Hc Hi Hn. unfold Sign. rewrite Hc, Hi.
  assert (Hb : (bytes_Compare (RawIssuer c) (RawSubject iss) =? 0) = true)
    by (apply Z.eqb_eq, bytes_Compare_eq; exact Hn).
  sign_steps. rewrite Hb. simpl. sign_steps. split.
  - simpl. right. left. reflexivity.
  - intros e He. rewrite He. reflexivity.
Qed.

(** C2: a present certificate whose raw issuer name differs from the
    issuer's raw subject name is rejected with the request error right
    after the name comparison, before any signature check. *)
Theorem Sign_rejects_issuer_mismatch s req now c iss :
  req_Certificate req = Some c -> issuer s = Some iss ->
  RawIssuer c <> RawSubject iss ->
  Sign s req now = (Err errTODO, [EvCompareNames]).
Proof.
  intros Hc Hi Hn. unfold Sign. rewrite Hc, Hi.
  assert (Hb : (bytes_Compare (RawIssuer c) (RawSubject iss) =? 0) = false).
  { apply Z.eqb_neq. intros H. apply Hn, bytes_Compare_eq, H. }
  sign_steps. rewrite Hb. reflexivity.
Qed.

(** C7: without a certificate, [Sign] returns the request error as its
    first step, with no event at all: no name comparison, signature
    check, clock read or encoding. *)
Theorem Sign_rejects_missing_certificate s req now :
  req_Certificate req = None -> Sign s req now = (Err errTODO, []).
Proof. intros Hc. unfold Sign. rewrite Hc. reflexivity. Qed.

(** C5: in the template of a successful [Sign], the revocation time and
    reason are the request's when the resolved status is [ocsp.Revoked],
    and the zero values otherwise. *)
Theorem Sign_revocation_fields s req now b :
  fst (Sign s req now) = Ok b ->
  exists t st,
    sign_template s req now = Some t /\
    CreateResponse (issuer s) (responder s) t (key s) = Ok b /\
    statusCode !! req_Status req = Some st /\ resp_Status t = st /\
    (st = ocsp_Revoked ->
       resp_RevokedAt t = req_RevokedAt req /\
       resp_RevocationReason t = req_Reason req) /\
    (st <> ocsp_Revoked ->
       resp_RevokedAt t = zeroTime /\ resp_RevocationReason t = 0).
Proof.
  intros Hok.
  destruct (Sign_ok_inv s req now b Hok)
    as (c & iss & st & _ & _ & _ & _ & Hst & Ht & Hb).
  eexists _, st. split; [exact Ht|]. split; [exact Hb|].
  split; [exact Hst|].
  unfold fill_revoked. destruct (Z.eqb_spec st ocsp_Revoked) as [->|Hne].
  - repeat split; reflexivity || (intros; reflexivity) || congruence.
  - split; [reflexivity|]. split; [intros; contradiction|]. 
    intros _. split; reflexivity.
Qed.

(** C6: [statusCode] maps exactly the tokens good, revoked and unknown,
    to [ocsp.Good], [ocsp.Revoked] and [ocsp.Unknown]; with an issuer
    configured, [Sign] fails with the request error for any other token,
    and for a recognised token whose certificate passes the trust checks
    it encodes a template carrying the token's code. *)
Theorem Sign_status_lookup :
  (forall k v, statusCode !! k = Some v <->
     (k = "good" /\ v = ocsp_Good) \/ (k = "revoked" /\ v = ocsp_Revoked) \/
     (k = "unknown" /\ v = ocsp_Unknown)) /\
  (forall s req now iss, issuer s = Some iss ->
     statusCode !! req_Status req = None ->
     fst (Sign s req now) = Err errTODO) /\
  (forall s req now c iss v,
     req_Certificate req = Some c -> issuer s = Some iss ->
     RawIssuer c = RawSubject iss -> CheckSignatureFrom c iss = None ->
     statusCode !! req_Status req = Some v ->
     exists t, sign_template s req now = Some t /\ resp_Status t = v /\
       fst (Sign s req now) = CreateResponse (issuer s) (responder s) t (key s)).
Proof.
  split; [|split].
  - intros k v. unfold statusCode.
    rewrite !lookup_insert_Some, lookup_empty.
    split.
    + intros [[<- <-]|[Hk [[<- <-]|[Hk' [[<- <-]|[_ ?]]]]]];
        [left|right; left|right; right|discriminate]; auto.
    + intros [[-> ->]|[[-> ->]|[-> ->]]].
      * left. auto.
      * right. split; [discriminate|]. left. auto.
      * right. split; [discriminate|]. right. split; [discriminate|].
        left. auto.
  - intros s req now iss Hi Hst. unfold Sign. rewrite Hi.
    destruct (req_Certificate req) as [c|]; [|reflexivity].
    sign_steps.
    destruct (bytes_Compare (RawIssuer c) (RawSubject iss) =? 0); [|reflexivity].
    simpl. sign_steps.
    destruct (CheckSignatureFrom c iss); [reflexivity|].
    simpl. sign_steps. rewrite Hst. reflexivity.
  - intros s req now c iss v Hc Hi Hn Hs Hst.
    assert (Hb : (bytes_Compare (RawIssuer c) (RawSubject iss) =? 0) = true)
      by (apply Z.eqb_eq, bytes_Compare_eq; exact Hn).
    unfold Sign, sign_template. rewrite Hc, Hi, Hb, Hs, Hst. simpl.
    eexists. split; [reflexivity|]. split.
    + unfold fill_revoked. destruct (v =? ocsp_Revoked); reflexivity.
    + sign_steps. reflexivity.
Qed.

(** C10: [NewSigner] never fails: for any certificates and key, nil or
    not, and any interval, it returns the signer with a nil error. *)
Theorem NewSigner_total issuer0 responder0 key0 interval0 :
  NewSigner issuer0 responder0 key0 interval0 =
  Ok (mkStandardSigner issuer0 responder0 key0 (wrap64 (interval0 * Second))).
Proof. reflexivity. Qed.

Lemma wrap64_range (z : Z) : - two63 <= wrap64 z < two63.
Proof.
  unfold wrap64, two63, two64.
  pose proof (Z.mod_pos_bound z (2 ^ 64) ltac:(reflexivity)) as Hb.
  assert (H64 : 2 ^ 64 = 18446744073709551616) by reflexivity.
  assert (H63 : 2 ^ 63 = 9223372036854775808) by reflexivity.
  rewrite H64, H63 in *.
  destruct (Z.leb_spec 9223372036854775808 (z mod 18446744073709551616)); lia.
Qed.

Lemma fill_revoked_times st req t :
  resp_ThisUpdate (fill_revoked st req t) = resp_ThisUpdate t /\
  resp_NextUpdate (fill_revoked st req t) = resp_NextUpdate t.
Proof. unfold fill_revoked. destruct (st =? ocsp_Revoked); split; reflexivity. Qed.

(** C4 (as the code does it): [thisUpdate] is [time.Now()] rounded to
    the nearest hour, halfway rounding up: the start of the current hour
    when less than 30 minutes have passed in it, the start of the next
    hour otherwise. *)
Theorem Sign_thisUpdate_nearest_hour s req now b :
  fst (Sign s req now) = Ok b ->
  0 <= nsec now < Second -> - 2 ^ 61 <= sec now <= 2 ^ 61 ->
  exists t,
    sign_template s req now = Some t /\
    CreateResponse (issuer s) (responder s) t (key s) = Ok b /\
    resp_ThisUpdate t = Round now Hour /\
    unixNano0 (resp_ThisUpdate t) mod Hour = 0 /\
    0 <= nsec (resp_ThisUpdate t) < Second /\
    (2 * (unixNano0 now mod Hour) < Hour ->
       unixNano0 (resp_ThisUpdate t) = unixNano0 now - unixNano0 now mod Hour) /\
    (Hour <= 2 * (unixNano0 now mod Hour) ->
       unixNano0 (resp_ThisUpdate t) =
         unixNano0 now - unixNano0 now mod Hour + Hour).
Proof.
  intros Hok Hns Hs.
  destruct (Sign_ok_inv s req now b Hok)
    as (c & iss & st & _ & _ & _ & _ & _ & Ht & Hb).
  eexists. split; [exact Ht|]. split; [exact Hb|].
  destruct (fill_revoked_times st req
    (base_template st c (Round now Hour) (Add (Round now Hour) (interval s))
       (responder s))) as [-> _].
  simpl. split; [reflexivity|].
  destruct (Round_Hour_exact now Hns Hs) as (He & Hn & _).
  cbv zeta in He.
  pose proof (Z.div_mod (unixNano0 now) Hour ltac:(discriminate)) as Hd.
  set (q := unixNano0 now / Hour) in *.
  set (r := unixNano0 now mod Hour) in *.
  split; [|split; [exact Hn|split]].
  - destruct (Z.ltb_spec (r + r) Hour); rewrite He.
    + replace (unixNano0 now - r) with (q * Hour) by lia.
      apply Z.mod_mul. discriminate.
    + replace (unixNano0 now - r + Hour) with ((q + 1) * Hour) by lia.
      apply Z.mod_mul. discriminate.
  - intros Hlt. rewrite He.
    destruct (Z.ltb_spec (r + r) Hour); lia.
  - intros Hge. rewrite He.
    destruct (Z.ltb_spec (r + r) Hour); lia.
Qed.

(** C8 (as the code does it): [nextUpdate] is [thisUpdate] plus the
    signer's interval exactly; for a signer built by [NewSigner] with
    [interval0] seconds that interval is [interval0 * time.Second]
    computed in int64, which is exactly [interval0] seconds whenever
    [|interval0| <= 9223372036] and wraps around otherwise. *)
Theorem Sign_nextUpdate_interval issuer0 responder0 key0 interval0 s req now b :
  NewSigner issuer0 responder0 key0 interval0 = Ok s ->
  fst (Sign s req now) = Ok b ->
  0 <= nsec now < Second -> - 2 ^ 61 <= sec now <= 2 ^ 61 ->
  exists t,
    sign_template s req now = Some t /\
    CreateResponse (issuer s) (responder s) t (key s) = Ok b /\
    unixNano0 (resp_NextUpdate t) =
      unixNano0 (resp_ThisUpdate t) + wrap64 (interval0 * Second) /\
    (- 9223372036 <= interval0 <= 9223372036 ->
       wrap64 (interval0 * Second) = interval0 * Second).
Proof.
  intros Hnew Hok Hns Hs.
  destruct (Sign_ok_inv s req now b Hok)
    as (c & iss & st & _ & _ & _ & _ & _ & Ht & Hb).
  eexists. split; [exact Ht|]. split; [exact Hb|].
  destruct (fill_revoked_times st req
    (base_template st c (Round now Hour) (Add (Round now Hour) (interval s))
       (responder s))) as [-> ->].
  simpl. unfold NewSigner in Hnew. injection Hnew as <-. simpl.
  destruct (Round_Hour_exact now Hns Hs) as (_ & Hn & Hsec).
  split.
  - apply Add_exact; [exact Hn| |apply wrap64_range].
    assert (2 ^ 62 = 2 * 2 ^ 61) as -> by reflexivity. lia.
  - intros Hr. apply wrap64_id. unfold two63, Second. lia.
Qed.

(** ** Further properties of [NewStandardSignerFromFile] *)

Lemma ReadFile_eq fs path :
  ReadFile fs path =
  (match fs path with
   | Some b => Ok b
   | None => Err (PathError "open" path)
   end, [EvReadFile path]).
Proof. unfold ReadFile. rewrite bind_emit. destruct (fs path); reflexivity. Qed.

Lemma snd_bind {A B} (m : M A) (f : A -> M B) :
  snd (go_bind m f) =
  snd m ++ match fst m with Ok a => snd (f a) | _ => [] end.
Proof.
  destruct m as [[a|e|p] tr]; simpl; rewrite ?app_nil_r; [|reflexivity..].
  destruct (f a); reflexivity.
Qed.

Lemma snd_lift_bind {A B} (o : outcome A) (f : A -> M B) :
  snd (go_bind (go_lift o) f) = match o with Ok a => snd (f a) | _ => [] end.
Proof. rewrite snd_bind. destruct o; reflexivity. Qed.

Ltac file_steps :=
  unfold NewStandardSignerFromFile; rewrite ?ReadFile_eq; cbn beta iota.

(** An unreadable issuer file ends the construction with the read error
    itself, unwrapped, after that single read. *)
Theorem NewStandardSignerFromFile_issuer_unreadable fs issuerFile responderFile
    keyFile interval0 :
  fs issuerFile = None ->
  NewStandardSignerFromFile fs issuerFile responderFile keyFile interval0 =
  (Err (PathError "open" issuerFile), [EvReadFile issuerFile]).
Proof. intros Hi. file_steps. rewrite Hi. reflexivity. Qed.

(** An unreadable key file (the issuer file being readable) is reported
    as a [CertificateError]/[ReadFailed] wrapping the read error, after
    three reads. *)
Theorem NewStandardSignerFromFile_key_unreadable fs issuerFile responderFile
    keyFile interval0 bi :
  fs issuerFile = Some bi -> fs keyFile = None ->
  NewStandardSignerFromFile fs issuerFile responderFile keyFile interval0 =
  (Err (CFError "CertificateError" "ReadFailed" (PathError "open" keyFile)),
   [EvReadFile issuerFile; EvReadFile issuerFile; EvReadFile keyFile]).
Proof. intros Hi Hk. file_steps. rewrite Hi, Hk. reflexivity. Qed.

(** Whatever the file system holds, the only files the constructor reads
    are the issuer file and the key file. *)
Theorem NewStandardSignerFromFile_reads_only_issuer_and_key fs issuerFile
    responderFile keyFile interval0 ev :
  In ev (snd (NewStandardSignerFromFile fs issuerFile responderFile keyFile interval0)) ->
  ev = EvReadFile issuerFile \/ ev = EvReadFile keyFile.
Proof.
  unfold NewStandardSignerFromFile.
  rewrite snd_bind, ReadFile_eq; cbn [fst snd].
  destruct (fs issuerFile) as [bi|]; cbn beta iota.
  2: { intros [<-|[]]; auto. }
  rewrite snd_bind, ?ReadFile_eq; cbn [fst snd].
  rewrite snd_bind, ?ReadFile_eq; cbn [fst snd].
  destruct (fs keyFile) as [bk|]; cbn beta iota.
  2: { intros H; repeat (destruct H as [<-|H]; auto); contradiction. }
  cbn [fst snd]. rewrite snd_lift_bind.
  destruct (ParseCertificatePEM bi); cbn beta iota;
    [|intros H; repeat (destruct H as [<-|H]; auto); contradiction..].
  rewrite snd_lift_bind.
  destruct (ParsePrivateKeyPEM bk); cbn beta iota;
    intros H; repeat (destruct H as [<-|H]; auto); contradiction.
Qed.

Lemma fst_bind {A B} (m : M A) (f : A -> M B) :
  fst (go_bind m f) =
  match fst m with Ok a => fst (f a) | Err e => Err e | Panic p => Panic p end.
Proof. destruct m as [[a|e|p] tr]; simpl; [destruct (f a)|..]; reflexivity. Qed.

(** A successful construction read the issuer and key files and parsed
    them; the signer holds the certificate parsed from the issuer file
    as both issuer and responder, and [interval0] seconds as an int64
    [time.Duration]. *)
Theorem NewStandardSignerFromFile_ok fs issuerFile responderFile keyFile
    interval0 s :
  fst (NewStandardSignerFromFile fs issuerFile responderFile keyFile interval0) = Ok s ->
  exists bi bk ci key0,
    fs issuerFile = Some bi /\ fs keyFile = Some bk /\
    ParseCertificatePEM bi = Ok ci /\ ParsePrivateKeyPEM bk = Ok key0 /\
    s = mkStandardSigner (Some ci) (Some ci) (Some key0) (wrap64 (interval0 * Second)).
Proof.
  unfold NewStandardSignerFromFile.
  rewrite fst_bind, ReadFile_eq; cbn [fst].
  destruct (fs issuerFile) as [bi|] eqn:Hi; [|intros ?Hbad; discriminate Hbad].
  rewrite fst_bind; cbn [fst].
  rewrite fst_bind; cbn [fst].
  rewrite (ReadFile_eq fs keyFile).
  destruct (fs keyFile) as [bk|] eqn:Hk; cbn; [|intros ?Hbad; discriminate Hbad].
  destruct (ParseCertificatePEM bi) as [ci| |] eqn:Hc; cbn; [|intros ?Hbad; discriminate Hbad..].
  destruct (ParsePrivateKeyPEM bk) as [key0| |] eqn:Hkey; cbn; [|intros ?Hbad; discriminate Hbad..].
  intros [= <-]. exists bi, bk, ci, key0. repeat split; assumption.
Qed.

(** With both files readable, a certificate or key that does not parse
    ends the construction with the parser's error, unwrapped, after all
    three reads. *)
Theorem NewStandardSignerFromFile_parse_errors fs issuerFile responderFile
    keyFile interval0 bi bk e :
  fs issuerFile = Some bi -> fs keyFile = Some bk ->
  (ParseCertificatePEM bi = Err e ->
   NewStandardSignerFromFile fs issuerFile responderFile keyFile interval0 =
   (Err e, [EvReadFile issuerFile; EvReadFile issuerFile; EvReadFile keyFile])) /\
  (forall ci, ParseCertificatePEM bi = Ok ci -> ParsePrivateKeyPEM bk = Err e ->
   NewStandardSignerFromFile fs issuerFile responderFile keyFile interval0 =
   (Err e, [EvReadFile issuerFile; EvReadFile issuerFile; EvReadFile keyFile])).
Proof.
  intros Hi Hk. split.
  - intros Hc. file_steps. rewrite Hi, Hk. cbn. rewrite Hc. reflexivity.
  - intros ci Hc Hkey. file_steps. rewrite Hi, Hk. cbn.
    rewrite Hc. cbn. rewrite Hkey. reflexivity.
Qed.

(** ** Further properties of [Sign] *)

Lemma statusCode_revoked k : statusCode !! k = Some ocsp_Revoked -> k = "revoked".
Proof.
  unfold statusCode. rewrite !lookup_insert_Some, lookup_empty.
  intros [[_ H]|[_ [[<- _]|[_ [[_ H]|[_ H]]]]]]; try discriminate; reflexivity.
Qed.

(** With a certificate to check and a nil issuer, [Sign] panics on
    [s.issuer.RawSubject] before doing anything else. *)
Theorem Sign_nil_issuer_panics s req now c :
  req_Certificate req = Some c -> issuer s = None ->
  Sign s req now = (Panic "invalid memory address or nil pointer dereference", []).
Proof. intros Hc Hi. unfold Sign. rewrite Hc, Hi. reflexivity. Qed.

(** [Sign] reads the clock only for a certificate that passed both trust
    checks, and calls [ocsp.CreateResponse] only when in addition the
    status token is recognised. *)
Theorem Sign_effects_only_after_checks s req now :
  (In EvNow (snd (Sign s req now)) ->
   exists c iss, req_Certificate req = Some c /\ issuer s = Some iss /\
     RawIssuer c = RawSubject iss /\ CheckSignatureFrom c iss = None) /\
  (In EvCreateResponse (snd (Sign s req now)) ->
   exists c iss v, req_Certificate req = Some c /\ issuer s = Some iss /\
     RawIssuer c = RawSubject iss /\ CheckSignatureFrom c iss = None /\
     statusCode !! req_Status req = Some v).
Proof.
  unfold Sign.
  destruct (req_Certificate req) as [c|]; [|simpl; tauto].
  destruct (issuer s) as [iss|]; [|simpl; tauto].
  sign_steps.
  destruct (bytes_Compare (RawIssuer c) (RawSubject iss) =? 0) eqn:Hn; cbn;
    [|intuition discriminate].
  apply Z.eqb_eq, bytes_Compare_eq in Hn.
  sign_steps.
  destruct (CheckSignatureFrom c iss) eqn:Hs; cbn; [intuition discriminate|].
  sign_steps.
  destruct (statusCode !! req_Status req) as [v|] eqn:Hst; cbn.
  - sign_steps. split; intros _; [exists c, iss|exists c, iss, v]; auto.
  - split; [intros _; exists c, iss; auto|intuition discriminate].
Qed.

(** Once every check passes, [Sign] returns exactly what
    [ocsp.CreateResponse] returns (bytes, error or panic) for the
    signer's issuer, responder and key and a template carrying the
    status code, the certificate's serial number and the responder
    certificate; the events are the name comparison, the signature
    check, the clock read and the encoding, in that order. *)
Theorem Sign_returns_encoder_result s req now c iss v :
  req_Certificate req = Some c -> issuer s = Some iss ->
  RawIssuer c = RawSubject iss -> CheckSignatureFrom c iss = None ->
  statusCode !! req_Status req = Some v ->
  exists t,
    Sign s req now =
      (CreateResponse (issuer s) (responder s) t (key s),
       [EvCompareNames; EvCheckSignature; EvNow; EvCreateResponse]) /\
    resp_Status t = v /\ resp_SerialNumber t = SerialNumber c /\
    resp_Certificate t = responder s.
Proof.
  intros Hc Hi Hn Hs Hst.
  assert (Hb : (bytes_Compare (RawIssuer c) (RawSubject iss) =? 0) = true)
    by (apply Z.eqb_eq, bytes_Compare_eq; exact Hn).
  unfold Sign. rewrite Hc, Hi. sign_steps. rewrite Hb. cbn. sign_steps.
  rewrite Hs. cbn. sign_steps. rewrite Hst. cbn. sign_steps.
  eexists. split; [reflexivity|].
  unfold fill_revoked. destruct (v =? ocsp_Revoked); repeat split.
Qed.

(** An unrecognised status token is detected after the clock read: the
    request error comes with the name comparison, the signature check and
    the clock read in the trace, and nothing is encoded. *)
Theorem Sign_unknown_status_after_clock s req now c iss :
  req_Certificate req = Some c -> issuer s = Some iss ->
  RawIssuer c = RawSubject iss -> CheckSignatureFrom c iss = None ->
  statusCode !! req_Status req = None ->
  Sign s req now = (Err errTODO, [EvCompareNames; EvCheckSignature; EvNow]).
Proof.
  intros Hc Hi Hn Hs Hst.
  assert (Hb : (bytes_Compare (RawIssuer c) (RawSubject iss) =? 0) = true)
    by (apply Z.eqb_eq, bytes_Compare_eq; exact Hn).
  unfold Sign. rewrite Hc, Hi. sign_steps. rewrite Hb. cbn. sign_steps.
  rewrite Hs. cbn. sign_steps. rewrite Hst. reflexivity.
Qed.

(** Unless the status token is "revoked", the request's reason and
    revocation time have no influence on what [Sign] does. *)
Theorem Sign_ignores_revocation_fields s req now reason revokedAt :
  req_Status req <> "revoked" ->
  Sign s req now =
  Sign s (mkSignRequest (req_Certificate req) (req_Status req) reason revokedAt) now.
Proof.
  intros Hr. unfold Sign. cbn [req_Certificate req_Status].
  destruct (req_Certificate req) as [c|]; [|reflexivity].
  destruct (issuer s) as [iss|]; [|reflexivity].
  destruct (bytes_Compare (RawIssuer c) (RawSubject iss) =? 0); [|reflexivity].
  destruct (CheckSignatureFrom c iss); [reflexivity|].
  destruct (statusCode !! req_Status req) as [v|] eqn:Hst; [|reflexivity].
  unfold fill_revoked. destruct (Z.eqb_spec v ocsp_Revoked) as [->|]; [|reflexivity].
  apply statusCode_revoked in Hst. contradiction.
Qed.

Lemma Time_eq_unixNano0 (a b : Time) :
  0 <= nsec a < Second -> 0 <= nsec b < Second ->
  unixNano0 a = unixNano0 b -> a = b.
Proof.
  destruct a as [sa na], b as [sb nb]. unfold unixNano0, Second; simpl.
  intros Ha Hb He. assert (sa = sb) by lia. assert (na = nb) by lia. subst. reflexivity.
Qed.

Lemma Round_Hour_window (t : Time) (k : Z) :
  0 <= nsec t < Second -> - 2 ^ 61 <= sec t <= 2 ^ 61 ->
  k * Hour - 30 * Minute <= unixNano0 t < k * Hour + 30 * Minute ->
  unixNano0 (Round t Hour) = k * Hour /\ 0 <= nsec (Round t Hour) < Second.
Proof.
  intros Hns Hs Hw.
  destruct (Round_Hour_exact t Hns Hs) as (He & Hn & _). cbv zeta in He.
  split; [|exact Hn]. rewrite He.
  pose proof (Z.div_mod (unixNano0 t) Hour ltac:(discriminate)) as Hd.
  pose proof (Z.mod_pos_bound (unixNano0 t) Hour ltac:(reflexivity)) as Hb.
  set (q := unixNano0 t / Hour) in *. set (r := unixNano0 t mod Hour) in *.
  unfold Hour, Minute, Second in *.
  assert (q = k \/ q = k - 1) as [-> | ->] by lia;
    destruct (Z.ltb_spec (r + r) (60 * (60 * 1000000000))); lia.
Qed.

(** Two calls whose clock readings fall in the same rounding window of
    [time.Round(time.Hour)] (from half an hour before an hour boundary
    up to, excluding, half an hour after it) behave identically: same
    outcome, same bytes, same trace. *)
Theorem Sign_same_rounding_window s req now1 now2 k :
  0 <= nsec now1 < Second -> - 2 ^ 61 <= sec now1 <= 2 ^ 61 ->
  0 <= nsec now2 < Second -> - 2 ^ 61 <= sec now2 <= 2 ^ 61 ->
  k * Hour - 30 * Minute <= unixNano0 now1 < k * Hour + 30 * Minute ->
  k * Hour - 30 * Minute <= unixNano0 now2 < k * Hour + 30 * Minute ->
  Sign s req now1 = Sign s req now2.
Proof.
  intros Hn1 Hs1 Hn2 Hs2 Hw1 Hw2.
  destruct (Round_Hour_window now1 k Hn1 Hs1 Hw1) as [He1 Hv1].
  destruct (Round_Hour_window now2 k Hn2 Hs2 Hw2) as [He2 Hv2].
  assert (Hr : Round now1 Hour = Round now2 Hour).
  { apply Time_eq_unixNano0; [exact Hv1|exact Hv2|congruence]. }
  unfold Sign. rewrite Hr. reflexivity.
Qed.

End Signer.

(** ** Properties of bytes.Compare *)

(** [bytes.Compare] returns -1, 0 or 1, and swapping its arguments
    negates the result. *)
Theorem bytes_Compare_antisym (a b : bytes) :
  bytes_Compare a b = - bytes_Compare b a /\
  (bytes_Compare a b = -1 \/ bytes_Compare a b = 0 \/ bytes_Compare a b = 1).
Proof.
  revert b; induction a as [|x a IH]; intros [|y b]; simpl; [lia..|].
  destruct (N.ltb_spec (Byte.to_N x) (Byte.to_N y)),
           (N.ltb_spec (Byte.to_N y) (Byte.to_N x)); try lia.
  apply IH.
Qed.

(** ** Witnesses, counterexamples and failing inputs *)

Lemma Sign_checks_signature_witness :
  req_Certificate (demo_request (Some demo_forged) "good") = Some demo_forged /\
  issuer (demo_signer 3600) = Some demo_issuer /\
  RawIssuer demo_forged = RawSubject demo_issuer /\
  In EvCheckSignature (snd (Sign demo_CheckSignatureFrom demo_CreateResponse
    (demo_signer 3600) (demo_request (Some demo_forged) "good") demo_now)) /\
  Sign demo_CheckSignatureFrom demo_CreateResponse (demo_signer 3600)
    (demo_request (Some demo_forged) "good") demo_now =
  (Err errTODO, [EvCompareNames; EvCheckSignature]).
Proof.
  destruct (Sign_checks_signature demo_CheckSignatureFrom demo_CreateResponse
    (demo_signer 3600) (demo_request (Some demo_forged) "good") demo_now
    demo_forged demo_issuer eq_refl eq_refl eq_refl) as [Hin Hrej].
  split; [reflexivity|]. split; [reflexivity|]. split; [reflexivity|].
  split; [exact Hin|].
  exact (Hrej (errorString "crypto/rsa: verification error") eq_refl).
Defined.

Lemma Sign_rejects_issuer_mismatch_witness :
  RawIssuer demo_foreign <> RawSubject demo_issuer /\
  Sign demo_CheckSignatureFrom demo_CreateResponse (demo_signer 3600)
    (demo_request (Some demo_foreign) "good") demo_now =
  (Err errTODO, [EvCompareNames]).
Proof.
  assert (Hne : RawIssuer demo_foreign <> RawSubject demo_issuer)
    by (simpl; discriminate).
  split; [exact Hne|].
  exact (Sign_rejects_issuer_mismatch demo_CheckSignatureFrom demo_CreateResponse
    (demo_signer 3600) (demo_request (Some demo_foreign) "good") demo_now
    demo_foreign demo_issuer eq_refl eq_refl Hne).
Defined.

Lemma Sign_rejects_missing_certificate_witness :
  req_Certificate (demo_request None "good") = None /\
  Sign demo_CheckSignatureFrom demo_CreateResponse (demo_signer 3600)
    (demo_request None "good") demo_now = (Err errTODO, []).
Proof.
  split; [reflexivity|].
  apply (Sign_rejects_missing_certificate demo_CheckSignatureFrom
    demo_CreateResponse (demo_signer 3600) (demo_request None "good") demo_now).
  reflexivity.
Defined.

Lemma Sign_revocation_fields_witness :
  fst (Sign demo_CheckSignatureFrom demo_CreateResponse (demo_signer 3600)
    (demo_request (Some demo_leaf) "revoked") demo_now) = Ok [x30] /\
  exists t st,
    sign_template demo_CheckSignatureFrom (demo_signer 3600)
      (demo_request (Some demo_leaf) "revoked") demo_now = Some t /\
    demo_CreateResponse (issuer (demo_signer 3600)) (responder (demo_signer 3600))
      t (key (demo_signer 3600)) = Ok [x30] /\
    statusCode !! req_Status (demo_request (Some demo_leaf) "revoked") = Some st /\
    resp_Status t = st /\
    (st = ocsp_Revoked ->
       resp_RevokedAt t = req_RevokedAt (demo_request (Some demo_leaf) "revoked") /\
       resp_RevocationReason t = req_Reason (demo_request (Some demo_leaf) "revoked")) /\
    (st <> ocsp_Revoked ->
       resp_RevokedAt t = zeroTime /\ resp_RevocationReason t = 0).
Proof.
  assert (Hok : fst (Sign demo_CheckSignatureFrom demo_CreateResponse
    (demo_signer 3600) (demo_request (Some demo_leaf) "revoked") demo_now)
    = Ok [x30]) by reflexivity.
  split; [exact Hok|].
  exact (Sign_revocation_fields demo_CheckSignatureFrom demo_CreateResponse
    (demo_signer 3600) (demo_request (Some demo_leaf) "revoked") demo_now
    [x30] Hok).
Defined.

Lemma Sign_thisUpdate_nearest_hour_witness :
  fst (Sign demo_CheckSignatureFrom demo_CreateResponse (demo_signer 3600)
    (demo_request (Some demo_leaf) "good") demo_now) = Ok [x30] /\
  0 <= nsec demo_now < Second /\ - 2 ^ 61 <= sec demo_now <= 2 ^ 61 /\
  exists t,
    sign_template demo_CheckSignatureFrom (demo_signer 3600)
      (demo_request (Some demo_leaf) "good") demo_now = Some t /\
    demo_CreateResponse (issuer (demo_signer 3600)) (responder (demo_signer 3600))
      t (key (demo_signer 3600)) = Ok [x30] /\
    resp_ThisUpdate t = Round demo_now Hour /\
    unixNano0 (resp_ThisUpdate t) mod Hour = 0 /\
    0 <= nsec (resp_ThisUpdate t) < Second /\
    (2 * (unixNano0 demo_now mod Hour) < Hour ->
       unixNano0 (resp_ThisUpdate t) = unixNano0 demo_now - unixNano0 demo_now mod Hour) /\
    (Hour <= 2 * (unixNano0 demo_now mod Hour) ->
       unixNano0 (resp_ThisUpdate t) =
         unixNano0 demo_now - unixNano0 demo_now mod Hour + Hour).
Proof.
  assert (Hok : fst (Sign demo_CheckSignatureFrom demo_CreateResponse
    (demo_signer 3600) (demo_request (Some demo_leaf) "good") demo_now)
    = Ok [x30]) by reflexivity.
  assert (Hns : 0 <= nsec demo_now < Second) by (simpl; unfold Second; lia).
  assert (Hs : - 2 ^ 61 <= sec demo_now <= 2 ^ 61) by (simpl; lia).
  split; [exact Hok|]. split; [exact Hns|]. split; [exact Hs|].
  exact (Sign_thisUpdate_nearest_hour demo_CheckSignatureFrom demo_CreateResponse
    (demo_signer 3600) (demo_request (Some demo_leaf) "good") demo_now [x30]
    Hok Hns Hs).
Defined.

(** C4 as stated fails: signed at 12:30:00, the response's [thisUpdate]
    is 13:00:00, not the start of the current hour (12:00:00). *)
Lemma Sign_thisUpdate_not_truncated :
  fst (Sign demo_CheckSignatureFrom demo_CreateResponse (demo_signer 3600)
    (demo_request (Some demo_leaf) "good") demo_now) = Ok [x30] /\
  unixNano0 demo_hour_start = unixNano0 demo_now - unixNano0 demo_now mod Hour /\
  option_map resp_ThisUpdate
    (sign_template demo_CheckSignatureFrom (demo_signer 3600)
       (demo_request (Some demo_leaf) "good") demo_now)
  = Some (mkTime (63927835200 + 3600) 0) /\
  mkTime (63927835200 + 3600) 0 <> demo_hour_start.
Proof.
  split; [reflexivity|]. split; [reflexivity|]. split; [reflexivity|].
  unfold demo_hour_start. intros H. injection H. lia.
Qed.

Lemma Sign_nextUpdate_interval_witness :
  NewSigner (Some demo_issuer) (Some demo_responder) (Some demo_key) 3600
    = Ok (demo_signer 3600) /\
  fst (Sign demo_CheckSignatureFrom demo_CreateResponse (demo_signer 3600)
    (demo_request (Some demo_leaf) "unknown") demo_now) = Ok [x30] /\
  exists t,
    sign_template demo_CheckSignatureFrom (demo_signer 3600)
      (demo_request (Some demo_leaf) "unknown") demo_now = Some t /\
    demo_CreateResponse (issuer (demo_signer 3600)) (responder (demo_signer 3600))
      t (key (demo_signer 3600)) = Ok [x30] /\
    unixNano0 (resp_NextUpdate t) =
      unixNano0 (resp_ThisUpdate t) + wrap64 (3600 * Second) /\
    (- 9223372036 <= 3600 <= 9223372036 ->
       wrap64 (3600 * Second) = 3600 * Second).
Proof.
  assert (Hnew : NewSigner (Some demo_issuer) (Some demo_responder)
    (Some demo_key) 3600 = Ok (demo_signer 3600)) by reflexivity.
  assert (Hok : fst (Sign demo_CheckSignatureFrom demo_CreateResponse
    (demo_signer 3600) (demo_request (Some demo_leaf) "unknown") demo_now)
    = Ok [x30]) by reflexivity.
  split; [exact Hnew|]. split; [exact Hok|].
  apply (Sign_nextUpdate_interval demo_CheckSignatureFrom demo_CreateResponse
    (Some demo_issuer) (Some demo_responder) (Some demo_key) 3600
    (demo_signer 3600) (demo_request (Some demo_leaf) "unknown") demo_now [x30]
    Hnew Hok).
  - simpl. unfold Second. lia.
  - simpl. lia.
Defined.

(** C8 as stated fails: with an interval of 10^10 seconds (a valid Go
    [int]), [interval * time.Second] wraps around in int64, and
    [nextUpdate - thisUpdate] is about -267 years, not 10^10 seconds. *)
Lemma Sign_nextUpdate_interval_wraps :
  NewSigner (Some demo_issuer) (Some demo_responder) (Some demo_key) 10000000000
    = Ok (demo_signer 10000000000) /\
  fst (Sign demo_CheckSignatureFrom demo_CreateResponse (demo_signer 10000000000)
    (demo_request (Some demo_leaf) "good") demo_now) = Ok [x30] /\
  option_map (fun t => unixNano0 (resp_NextUpdate t) - unixNano0 (resp_ThisUpdate t))
    (sign_template demo_CheckSignatureFrom (demo_signer 10000000000)
       (demo_request (Some demo_leaf) "good") demo_now)
  = Some (-8446744073709551616) /\
  -8446744073709551616 <> 10000000000 * Second.
Proof.
  split; [reflexivity|]. split; [reflexivity|]. split; [vm_compute; reflexivity|].
  unfold Second. lia.
Qed.

(** C9: the four rejections of [Sign] (no certificate, foreign issuer,
    forged signature, unknown status token) return the same error value,
    [errors.New("TODO")]. *)
Lemma Sign_rejections_indistinguishable :
  fst (Sign demo_CheckSignatureFrom demo_CreateResponse (demo_signer 3600)
    (demo_request None "good") demo_now) = Err (errorString "TODO") /\
  fst (Sign demo_CheckSignatureFrom demo_CreateResponse (demo_signer 3600)
    (demo_request (Some demo_foreign) "good") demo_now) = Err (errorString "TODO") /\
  fst (Sign demo_CheckSignatureFrom demo_CreateResponse (demo_signer 3600)
    (demo_request (Some demo_forged) "good") demo_now) = Err (errorString "TODO") /\
  fst (Sign demo_CheckSignatureFrom demo_CreateResponse (demo_signer 3600)
    (demo_request (Some demo_leaf) "suspended") demo_now) = Err (errorString "TODO").
Proof. repeat split; reflexivity. Qed.

(** C3: with three distinct files, [NewStandardSignerFromFile] reads the
    issuer file twice and never the responder file; the responder
    certificate it builds is the issuer certificate. *)
Lemma NewStandardSignerFromFile_reads_issuer_twice :
  NewStandardSignerFromFile demo_ParseCertificatePEM demo_ParsePrivateKeyPEM
    demo_fs "issuer.pem" "responder.pem" "key.pem" 3600 =
  (Ok (mkStandardSigner (Some (mkCertificate [x01] [] [] 0))
         (Some (mkCertificate [x01] [] [] 0)) (Some (mkPrivateKey [x06]))
         (3600 * Second)),
   [EvReadFile "issuer.pem"; EvReadFile "issuer.pem"; EvReadFile "key.pem"]).
Proof. reflexivity. Qed.

(** ** Witnesses of the further properties *)

Lemma NewStandardSignerFromFile_issuer_unreadable_witness :
  demo_fs "missing.pem" = None /\
  NewStandardSignerFromFile demo_ParseCertificatePEM demo_ParsePrivateKeyPEM
    demo_fs "missing.pem" "responder.pem" "key.pem" 3600 =
  (Err (PathError "open" "missing.pem"), [EvReadFile "missing.pem"]).
Proof.
  assert (H : demo_fs "missing.pem" = None) by reflexivity.
  split; [exact H|].
  exact (NewStandardSignerFromFile_issuer_unreadable demo_ParseCertificatePEM
    demo_ParsePrivateKeyPEM demo_fs "missing.pem" "responder.pem" "key.pem" 3600 H).
Defined.

Lemma NewStandardSignerFromFile_key_unreadable_witness :
  demo_fs "issuer.pem" = Some [x01] /\ demo_fs "missing.pem" = None /\
  NewStandardSignerFromFile demo_ParseCertificatePEM demo_ParsePrivateKeyPEM
    demo_fs "issuer.pem" "responder.pem" "missing.pem" 3600 =
  (Err (CFError "CertificateError" "ReadFailed" (PathError "open" "missing.pem")),
   [EvReadFile "issuer.pem"; EvReadFile "issuer.pem"; EvReadFile "missing.pem"]).
Proof.
  assert (Hi : demo_fs "issuer.pem" = Some [x01]) by reflexivity.
  assert (Hk : demo_fs "missing.pem" = None) by reflexivity.
  split; [exact Hi|]. split; [exact Hk|].
  exact (NewStandardSignerFromFile_key_unreadable demo_ParseCertificatePEM
    demo_ParsePrivateKeyPEM demo_fs "issuer.pem" "responder.pem" "missing.pem"
    3600 [x01] Hi Hk).
Defined.

Lemma NewStandardSignerFromFile_reads_only_issuer_and_key_witness :
  In (EvReadFile "key.pem")
    (snd (NewStandardSignerFromFile demo_ParseCertificatePEM demo_ParsePrivateKeyPEM
       demo_fs "issuer.pem" "responder.pem" "key.pem" 3600)) /\
  (EvReadFile "key.pem" = EvReadFile "issuer.pem" \/
   EvReadFile "key.pem" = EvReadFile "key.pem").
Proof.
  assert (H : In (EvReadFile "key.pem")
    (snd (NewStandardSignerFromFile demo_ParseCertificatePEM demo_ParsePrivateKeyPEM
       demo_fs "issuer.pem" "responder.pem" "key.pem" 3600)))
    by (simpl; auto).
  split; [exact H|].
  exact (NewStandardSignerFromFile_reads_only_issuer_and_key demo_ParseCertificatePEM
    demo_ParsePrivateKeyPEM demo_fs "issuer.pem" "responder.pem" "key.pem" 3600
    (EvReadFile "key.pem") H).
Defined.

Lemma NewStandardSignerFromFile_ok_witness :
  fst (NewStandardSignerFromFile demo_ParseCertificatePEM demo_ParsePrivateKeyPEM
    demo_fs "issuer.pem" "responder.pem" "key.pem" 3600)
  = Ok (mkStandardSigner (Some (mkCertificate [x01] [] [] 0))
          (Some (mkCertificate [x01] [] [] 0)) (Some (mkPrivateKey [x06]))
          (3600 * Second)) /\
  exists bi bk ci key0,
    demo_fs "issuer.pem" = Some bi /\ demo_fs "key.pem" = Some bk /\
    demo_ParseCertificatePEM bi = Ok ci /\ demo_ParsePrivateKeyPEM bk = Ok key0 /\
    mkStandardSigner (Some (mkCertificate [x01] [] [] 0))
      (Some (mkCertificate [x01] [] [] 0)) (Some (mkPrivateKey [x06]))
      (3600 * Second)
    = mkStandardSigner (Some ci) (Some ci) (Some key0) (wrap64 (3600 * Second)).
Proof.
  assert (H : fst (NewStandardSignerFromFile demo_ParseCertificatePEM
    demo_ParsePrivateKeyPEM demo_fs "issuer.pem" "responder.pem" "key.pem" 3600)
    = Ok (mkStandardSigner (Some (mkCertificate [x01] [] [] 0))
            (Some (mkCertificate [x01] [] [] 0)) (Some (mkPrivateKey [x06]))
            (3600 * Second))) by reflexivity.
  split; [exact H|].
  exact (NewStandardSignerFromFile_ok demo_ParseCertificatePEM demo_ParsePrivateKeyPEM
    demo_fs "issuer.pem" "responder.pem" "key.pem" 3600 _ H).
Defined.

Lemma NewStandardSignerFromFile_parse_errors_witness :
  demo_fs_garbage "issuer.pem" = Some [x01] /\
  demo_fs_garbage "garbage.pem" = Some [xff] /\
  NewStandardSignerFromFile demo_StrictParseCertificatePEM
    demo_StrictParsePrivateKeyPEM demo_fs_garbage "issuer.pem" "responder.pem"
    "garbage.pem" 3600 =
  (Err (ParseError "private key"),
   [EvReadFile "issuer.pem"; EvReadFile "issuer.pem"; EvReadFile "garbage.pem"]).
Proof.
  assert (Hi : demo_fs_garbage "issuer.pem" = Some [x01]) by reflexivity.
  assert (Hk : demo_fs_garbage "garbage.pem" = Some [xff]) by reflexivity.
  split; [exact Hi|]. split; [exact Hk|].
  apply (proj2 (NewStandardSignerFromFile_parse_errors demo_StrictParseCertificatePEM
    demo_StrictParsePrivateKeyPEM demo_fs_garbage "issuer.pem" "responder.pem"
    "garbage.pem" 3600 [x01] [xff] (ParseError "private key") Hi Hk)
    (mkCertificate [x01] [] [] 0)); reflexivity.
Defined.

Lemma Sign_nil_issuer_panics_witness :
  Sign demo_CheckSignatureFrom demo_CreateResponse
    (mkStandardSigner None (Some demo_responder) (Some demo_key) (3600 * Second))
    (demo_request (Some demo_leaf) "good") demo_now =
  (Panic "invalid memory address or nil pointer dereference", []).
Proof.
  apply (Sign_nil_issuer_panics demo_CheckSignatureFrom demo_CreateResponse
    (mkStandardSigner None (Some demo_responder) (Some demo_key) (3600 * Second))
    (demo_request (Some demo_leaf) "good") demo_now demo_leaf); reflexivity.
Defined.

Lemma Sign_returns_encoder_result_witness :
  exists t,
    Sign demo_CheckSignatureFrom demo_CreateResponse (demo_signer 3600)
      (demo_request (Some demo_leaf) "good") demo_now =
      (demo_CreateResponse (Some demo_issuer) (Some demo_responder) t (Some demo_key),
       [EvCompareNames; EvCheckSignature; EvNow; EvCreateResponse]) /\
    resp_Status t = ocsp_Good /\ resp_SerialNumber t = 42 /\
    resp_Certificate t = Some demo_responder.
Proof.
  apply (Sign_returns_encoder_result demo_CheckSignatureFrom demo_CreateResponse
    (demo_signer 3600) (demo_request (Some demo_leaf) "good") demo_now
    demo_leaf demo_issuer ocsp_Good); reflexivity.
Defined.

Lemma Sign_unknown_status_after_clock_witness :
  Sign demo_CheckSignatureFrom demo_CreateResponse (demo_signer 3600)
    (demo_request (Some demo_leaf) "suspended") demo_now =
  (Err errTODO, [EvCompareNames; EvCheckSignature; EvNow]).
Proof.
  apply (Sign_unknown_status_after_clock demo_CheckSignatureFrom demo_CreateResponse
    (demo_signer 3600) (demo_request (Some demo_leaf) "suspended") demo_now
    demo_leaf demo_issuer); reflexivity.
Defined.

Lemma Sign_ignores_revocation_fields_witness :
  "good" <> "revoked" /\
  Sign demo_CheckSignatureFrom demo_CreateResponse (demo_signer 3600)
    (demo_request (Some demo_leaf) "good") demo_now =
  Sign demo_CheckSignatureFrom demo_CreateResponse (demo_signer 3600)
    (mkSignRequest (Some demo_leaf) "good" 5 demo_now) demo_now.
Proof.
  assert (H : "good" <> "revoked") by discriminate.
  split; [exact H|].
  exact (Sign_ignores_revocation_fields demo_CheckSignatureFrom demo_CreateResponse
    (demo_signer 3600) (demo_request (Some demo_leaf) "good") demo_now 5 demo_now H).
Defined.

Lemma Sign_same_rounding_window_witness :
  Sign demo_CheckSignatureFrom demo_CreateResponse (demo_signer 3600)
    (demo_request (Some demo_leaf) "good") demo_now =
  Sign demo_CheckSignatureFrom demo_CreateResponse (demo_signer 3600)
    (demo_request (Some demo_leaf) "good") (mkTime 63927838799 999999999).
Proof.
  apply (Sign_same_rounding_window demo_CheckSignatureFrom demo_CreateResponse
    (demo_signer 3600) (demo_request (Some demo_leaf) "good") demo_now
    (mkTime 63927838799 999999999) 17757733);
    unfold unixNano0, Hour, Minute, Second; simpl; lia.
Defined.
